(** * The inference pipeline controller of the QA service

    A shallow embedding of [codingchallenge_qa_service/routers/infer.py]:
    the answer validator, the text cleaning, the wrappers around the
    downstream services and the [infer] endpoint that sequences them.

    Conventions of the embedding.
    - A Python [str] is a [string] whose characters are the code points
      below 256 (Latin-1); [str.strip] and [str.lower] are written out on
      that range.
    - Code that writes to the transaction and may raise is a computation
      in the monad [M]: it takes the request state and returns a result, a
      raised [HTTPException] or another exception nobody catches, together
      with the new state. A wrapper that awaits a service is a [Coroutine]:
      the request it sends, and what it does once the service answered.
    - [asyncio.gather] starts both coroutines, so both requests leave, and
      the services answer in either order; which one answers first is part
      of the deployment a theorem quantifies over.
    - A downstream service is an arbitrary function from the arguments of
      the call to either a returned value or a raised exception; every
      theorem quantifies over all such functions. Within one request a
      service asked twice with the same arguments answers the same way.
    - The replies of the sensitivity and prefiltering services hold the
      keys the code reads; the reply of the inference service may lack its
      keys, and its answer may be [None].
    - Calls to the logger and the durations measured by [Clock] are left
      out: nothing the endpoint decides depends on them. *)

From Stdlib Require Import Bool List String Ascii ZArith Lia.
Import ListNotations.

Local Open Scope string_scope.
Local Open Scope Z_scope.

(** ** Python strings *)

Module PyStr.

(** [str.isspace] on one code point below 256: tab, line feed, vertical
    tab, form feed, carriage return, the four separators 0x1C-0x1F,
    space, next-line (0x85) and no-break space (0xA0). *)
Definition isspace (c : ascii) : bool :=
  let n := N_of_ascii c in
  ((9 <=? n) && (n <=? 13) || (28 <=? n) && (n <=? 32)
   || (n =? 133) || (n =? 160))%N.

(** [str.lower] on one code point below 256: A-Z and the Latin-1 capitals
    0xC0-0xDE (the multiplication sign 0xD7 apart) move up by 32. *)
Definition lower_char (c : ascii) : ascii :=
  let n := N_of_ascii c in
  if ((65 <=? n) && (n <=? 90)
      || (192 <=? n) && (n <=? 222) && negb (n =? 215))%N
  then ascii_of_N (n + 32) else c.

Fixpoint lower (s : string) : string :=
  match s with
  | EmptyString => EmptyString
  | String c s' => String (lower_char c) (lower s')
  end.

Fixpoint lstrip (s : string) : string :=
  match s with
  | EmptyString => EmptyString
  | String c s' => if isspace c then lstrip s' else s
  end.

(** Drops the trailing white space: a character is kept when it is not
    white space or when something is kept after it. *)
Fixpoint rstrip (s : string) : string :=
  match s with
  | EmptyString => EmptyString
  | String c s' =>
      match rstrip s' with
      | EmptyString => if isspace c then EmptyString else String c EmptyString
      | r => String c r
      end
  end.

(** [s.strip()] with no argument. *)
Definition strip (s : string) : string := rstrip (lstrip s).

(** [x in l] for a list of strings. *)
Definition mem (x : string) (l : list string) : bool :=
  existsb (String.eqb x) l.

(** The text is made of white space only ([s.isspace()], or [s] empty). *)
Fixpoint all_space (s : string) : bool :=
  match s with
  | EmptyString => true
  | String c s' => isspace c && all_space s'
  end.

End PyStr.

(** ** Data model *)

(** Modelled from the spec: the enum [Language] of
    [codingchallenge_qa_service.models.qa_models], whose declaration is not
    part of the sources; the request's [language] is one of EN and DE. *)
Inductive Language : Type := EN | DE.

Definition Language_eqb (a b : Language) : bool :=
  match a, b with
  | EN, EN | DE, DE => true
  | _, _ => false
  end.

(** ** Answer validator and cleaning *)

(** [answer] is optional because the code tests [answer is None]. *)
Definition _check_answer_validity (answer : option string) (language : Language) : bool :=
  let unknown_response :=
    if Language_eqb language EN then ["unknown"; "unknown."]
    else ["unbekannt"; "unbekannt."] in
  match answer with
  | None => false
  | Some a =>
      if String.eqb a "" then false
      else if PyStr.mem (PyStr.lower a) unknown_response then false
      else true
  end.

Definition _clean_question (question : string) : string :=
  let cleaned_question := PyStr.strip question in
  cleaned_question.

Definition _clean_answer (answer : string) : string :=
  let cleaned_answer := PyStr.strip answer in
  cleaned_answer.

(** ** Requests, service payloads and responses *)

Definition UUID : Type := N.

Record User : Type := { id : string }.

(** Modelled from the spec: the request model [InferRequest] of
    [codingchallenge_qa_service.models.infer_request], whose declaration is
    not part of the sources; the fields are those the endpoint reads. *)
Record InferRequest : Type := {
  query : string;
  course_id : string;
  user : User;
  language : Language;
  allow_annotation : bool;
  client : string
}.

(** Modelled from the spec: the response model [InferResponse] of
    [codingchallenge_qa_service.models.infer_response]; the fields are the
    keyword arguments the endpoint builds it with. *)
Record InferResponse : Type := {
  answer : string;
  question : string;
  answer_validity : string;
  transaction_id : string;
  is_gs_answer : bool;
  question_uuid : UUID
}.

(** Modelled from the spec: [ParaphraseServiceRequest] and
    [ParaphraseServiceResponse] of
    [codingchallenge_qa_service.models.paraphrase_models]. A response object
    is always true in a condition; the absence of a match is [None]. *)
Record ParaphraseServiceRequest : Type := {
  question_content_str : string;
  req_course_id : string
}.

Record ParaphraseServiceResponse : Type := {
  gs_answer_content_str : string
}.

(** The dictionary returned by the sensitive content detection service. *)
Record ScdResponse : Type := {
  sensitivity : string;
  scd_model_name : string
}.

(** The dictionary returned by the prefiltering service when a document
    matched; no match is [None]. *)
Record Document : Type := {
  doc_id : string;
  content : string
}.

(** The dictionary of the inference service when it is as expected: a
    text under "answer" and a name under "model_context"/"model_name". *)
Record ModelContext : Type := { model_name : string }.

Record InferenceResult : Type := {
  inference_answer : string;
  model_context : ModelContext
}.

(** The dictionary the inference service returns, a [Dict[str, Any]]. The
    key "answer" may be absent, and when present its value is a text or
    not ([None] here stands for [None] and any value without [strip]); the
    key "model_context" may be absent, and when present it holds a
    "model_name" or not. *)
Record InferenceReply : Type := {
  reply_answer : option (option string);
  reply_model_context : option (option string)
}.

(** An expected dictionary is the reply that holds both keys. Where a
    reply is wanted and an [InferenceResult] is written, this is meant. *)
Definition well_formed (r : InferenceResult) : InferenceReply :=
  {| reply_answer := Some (Some (inference_answer r));
     reply_model_context := Some (Some (model_name (model_context r))) |}.
Coercion well_formed : InferenceResult >-> InferenceReply.

(** An exception raised by a service client, or by the interpreter on a
    missing key or attribute. *)
Inductive PyException : Type :=
| Exception (msg : string)
| KeyError (key : string)
| AttributeError (msg : string).

Record HTTPException : Type := {
  status_code : Z;
  detail : string
}.

(** What the endpoint returns: a bare [Response(status_code=...)] or an
    [InferResponse]. *)
Inductive Reply : Type :=
| Response (code : Z)
| Answer (r : InferResponse).

(** ** The downstream services *)

Inductive ServiceResult (A : Type) : Type :=
| Returns (a : A)
| Raises (e : PyException).
Arguments Returns {A} & a.
Arguments Raises {A} e.

(** [request.app.state.services], the identifier [uuid4()] draws for the
    request, and which of the two calls [infer] makes concurrently is
    answered first. *)
Record Services : Type := {
  sensitive_content_detection_service :
    string -> string -> ServiceResult ScdResponse;
  paraphrase_service :
    ParaphraseServiceRequest -> ServiceResult (option ParaphraseServiceResponse);
  prefiltering_service :
    string -> Language -> list string -> ServiceResult (option Document);
  infer_service :
    string -> Document -> string -> Language -> ServiceResult InferenceReply;
  uuid4 : UUID;
  paraphrase_answers_first : bool
}.

(** A request sent to a downstream service. *)
Inductive Call : Type :=
| CallSensitivity (query user_id : string)
| CallParaphrase (r : ParaphraseServiceRequest)
| CallPrefiltering (query : string) (lang : Language) (coursebook_ids : list string)
| CallInference (query : string) (doc : Document) (user_id : string) (lang : Language).

Definition is_sensitivity_call (c : Call) : bool :=
  match c with CallSensitivity _ _ => true | _ => false end.

Definition is_prefiltering_call (c : Call) : bool :=
  match c with CallPrefiltering _ _ _ => true | _ => false end.

Definition is_inference_call (c : Call) : bool :=
  match c with CallInference _ _ _ _ => true | _ => false end.

(** ** The transaction and the request state *)

(** One dictionary passed to [transaction.record]. The durations measured
    by [Clock] are left out. *)
Inductive Fact : Type :=
| FError (error : string) (exc_info : PyException)
| FRequest (request_body : InferRequest) (uuid : UUID) (cleaned : string)
| FSensitivityQuestion (verdict model : string)
| FSensitivityAnswer (verdict model : string)
| FPreselection (result : option string)
| FParaphrase (result : ParaphraseServiceResponse)
| FInference (model : string) (inference_body : InferenceReply).

Module Transaction.
(** Modelled from the spec: [request.state.transaction], whose class is not
    part of the sources: an identifier, the [should_store] flag and the
    append-only sequence of recorded facts. *)
Record t : Type := {
  transaction_id : string;
  should_store : bool;
  recorded : list Fact
}.

Definition record (f : Fact) (tr : t) : t :=
  {| transaction_id := transaction_id tr;
     should_store := should_store tr;
     recorded := recorded tr ++ [f] |}.

Definition set_should_store (b : bool) (tr : t) : t :=
  {| transaction_id := transaction_id tr;
     should_store := b;
     recorded := recorded tr |}.
End Transaction.

(** The state of one request: its transaction, and the requests sent to
    the services so far. *)
Record State : Type := {
  transaction : Transaction.t;
  calls : list Call
}.

(** ** The monad of the endpoint *)

(** How a computation ends: with a value, with a raised [HTTPException],
    or with another exception that nothing in this file catches. *)
Inductive Result (A : Type) : Type :=
| Ok (a : A)
| Raise (e : HTTPException)
| Unhandled (e : PyException).
Arguments Ok {A} a.
Arguments Raise {A} e.
Arguments Unhandled {A} e.

Definition M (A : Type) : Type := State -> Result A * State.

Definition ret {A : Type} (a : A) : M A := fun s => (Ok a, s).

Definition bind {A B : Type} (m : M A) (k : A -> M B) : M B :=
  fun s =>
    match m s with
    | (Ok a, s') => k a s'
    | (Raise e, s') => (Raise e, s')
    | (Unhandled e, s') => (Unhandled e, s')
    end.

Definition raise {A : Type} (e : HTTPException) : M A := fun s => (Raise e, s).

(** An exception other than [HTTPException] leaves the function. *)
Definition unhandled {A : Type} (e : PyException) : M A :=
  fun s => (Unhandled e, s).

Declare Scope pipeline_scope.
Delimit Scope pipeline_scope with pipeline.
Notation "x <- m ;; k" := (bind m (fun x => k))
  (at level 61, m at next level, right associativity) : pipeline_scope.
Notation "m ;; k" := (bind m (fun _ => k))
  (at level 61, right associativity) : pipeline_scope.
Local Open Scope pipeline_scope.

(** [request.state.transaction.record(fact)] *)
Definition record (f : Fact) : M unit :=
  fun s => (Ok tt, {| transaction := Transaction.record f (transaction s);
                      calls := calls s |}).

(** [request.state.transaction.should_store = b] *)
Definition set_should_store (b : bool) : M unit :=
  fun s => (Ok tt, {| transaction := Transaction.set_should_store b (transaction s);
                      calls := calls s |}).

(** [request.state.transaction.transaction_id] *)
Definition get_transaction_id : M string :=
  fun s => (Ok (Transaction.transaction_id (transaction s)), s).

(** The request leaves for the service. *)
Definition send (c : Call) : M unit :=
  fun s => (Ok tt, {| transaction := transaction s; calls := calls s ++ [c] |}).

(** ** Coroutines *)

(** A wrapper of this file awaits one service call: it sends the request
    [awaited], is suspended, and goes on with [resumed] when the service
    has answered. *)
Record Coroutine (A : Type) : Type := Suspended {
  awaited : Call;
  resumed : M A
}.
Arguments Suspended {A} awaited resumed.
Arguments awaited {A} c.
Arguments resumed {A} c.

(** [await co]: the request is sent and the caller goes on when the
    coroutine is done. A coroutine applied to a state stands for the
    awaited coroutine run from that state. *)
Definition await {A : Type} (co : Coroutine A) : State -> Result A * State :=
  send (awaited co) ;; resumed co.
Coercion await : Coroutine >-> Funclass.

(** A coroutine that awaits [co] and then goes on with [k] without being
    suspended again. *)
Definition then_ {A B : Type} (co : Coroutine A) (k : A -> M B) : Coroutine B :=
  Suspended (awaited co) (bind (resumed co) k).

Notation "x <~ co ;; k" := (then_ co (fun x => k))
  (at level 61, co at next level, right associativity) : pipeline_scope.

(** [asyncio.gather(a, b)]. Each coroutine becomes a task; the tasks run in
    this order up to their await, so both requests leave. The answers then
    come in either order ([b_first]), and each task goes on when its answer
    is there. [gather] raises in its caller the first exception a task
    raises, at once: what the other task would still have done has not
    happened when the caller goes on. *)
Definition gather {A B : Type} (b_first : bool)
    (a : Coroutine A) (b : Coroutine B) : M (A * B) :=
  send (awaited a) ;;
  send (awaited b) ;;
  if b_first
  then y <- resumed b ;; x <- resumed a ;; ret (x, y)
  else x <- resumed a ;; y <- resumed b ;; ret (x, y).

(** ** The wrappers around the services *)

Definition _run_sensitive_content_detection
    (services : Services) (query user_id : string) : Coroutine ScdResponse :=
  Suspended (CallSensitivity query user_id)
    match sensitive_content_detection_service services query user_id with
    | Raises e =>
        record (FError "Exception in Sensitive Content Detection." e) ;;
        raise {| status_code := 500;
                 detail := "Sensitive Content Detection Exception." |}
    | Returns scd_response => ret scd_response
    end.

Definition _question_has_sensitive_content
    (services : Services) (user_id question : string) : Coroutine bool :=
  scd_response <~ _run_sensitive_content_detection services question user_id ;;
  record (FSensitivityQuestion (sensitivity scd_response)
                               (scd_model_name scd_response)) ;;
  ret (negb (String.eqb (sensitivity scd_response) "SAFE")).

Definition _answer_has_sensitive_content
    (services : Services) (user_id answer : string) : Coroutine bool :=
  scd_response <~ _run_sensitive_content_detection services answer user_id ;;
  record (FSensitivityAnswer (sensitivity scd_response)
                             (scd_model_name scd_response)) ;;
  ret (negb (String.eqb (sensitivity scd_response) "SAFE")).

(** The result is [None] for a falsy [prefiltered_doc] (no document). *)
Definition _get_prefiltered_documents_from_elasticsearch
    (services : Services) (course_id question : string) (language : Language)
    : Coroutine (option Document) :=
  Suspended (CallPrefiltering question language [course_id])
    match prefiltering_service services question language [course_id] with
    | Raises e =>
        record (FError "Exception in Prefiltering." e) ;;
        raise {| status_code := 412;
                 detail := "Failed to fetch prefiltered document from ElasticSearch." |}
    | Returns prefiltered_doc =>
        record (FPreselection (option_map doc_id prefiltered_doc)) ;;
        ret prefiltered_doc
    end.

Definition _get_answer_from_paraphrase
    (services : Services) (course_id cleaned_question : string)
    : Coroutine (option ParaphraseServiceResponse) :=
  let request := {| question_content_str := cleaned_question;
                    req_course_id := course_id |} in
  Suspended (CallParaphrase request)
    (answer_from_paraphrase <-
       match paraphrase_service services request with
       | Raises e =>
           record (FError "Exception in Paraphrasing." e) ;;
           ret None
       | Returns r => ret r
       end ;;
     match answer_from_paraphrase with
     | Some found => record (FParaphrase found)
     | None => ret tt
     end ;;
     ret answer_from_paraphrase).

(** The [except] branch of [_get_model_inference_result]. *)
Definition qa_service_failed {A : Type} (e : PyException) : M A :=
  record (FError "Exception in QAService." e) ;;
  raise {| status_code := 400; detail := "QAService Exception" |}.

(** The [try] covers the call, the reading of
    [inference_response["model_context"]["model_name"]] and the building of
    the fact, which reads [inference_response["answer"]]: an absent key is
    a [KeyError] that ends like a failure of the service. *)
Definition _get_model_inference_result
    (services : Services) (user_id question : string) (doc : Document)
    (language : Language) : Coroutine InferenceReply :=
  Suspended (CallInference question doc user_id language)
    match infer_service services question doc user_id language with
    | Raises e => qa_service_failed e
    | Returns inference_response =>
        match reply_model_context inference_response with
        | None => qa_service_failed (KeyError "model_context")
        | Some None => qa_service_failed (KeyError "model_name")
        | Some (Some model_name) =>
            match reply_answer inference_response with
            | None => qa_service_failed (KeyError "answer")
            | Some _ =>
                record (FInference model_name inference_response) ;;
                ret inference_response
            end
        end
    end.

(** ** The endpoint *)

(** [_clean_answer(model_inference_result["answer"])]: the key is read,
    and [strip] is called on its value, which fails on [None]. *)
Definition clean_answer_of (model_inference_result : InferenceReply) : M string :=
  match reply_answer model_inference_result with
  | None => unhandled (KeyError "answer")
  | Some None =>
      unhandled (AttributeError "'NoneType' object has no attribute 'strip'")
  | Some (Some answer) => ret (_clean_answer answer)
  end.

Definition infer (services : Services) (request_body : InferRequest) : M Reply :=
  set_should_store true ;;
  let question_uuid := uuid4 services in
  let cleaned_question := _clean_question (query request_body) in
  record (FRequest request_body question_uuid cleaned_question) ;;
  r <- gather (paraphrase_answers_first services)
         (_question_has_sensitive_content
            services (id (user request_body)) cleaned_question)
         (_get_answer_from_paraphrase
            services (course_id request_body) cleaned_question) ;;
  let (has_sensitive_content, paraphrase) := r in
  if has_sensitive_content then ret (Response 400)
  else
    match paraphrase with
    | Some found =>
        tid <- get_transaction_id ;;
        ret (Answer {| answer := gs_answer_content_str found;
                       question := cleaned_question;
                       answer_validity := "valid";
                       transaction_id := tid;
                       is_gs_answer := true;
                       question_uuid := question_uuid |})
    | None =>
        prefiltered_doc <-
          await (_get_prefiltered_documents_from_elasticsearch
                   services (course_id request_body) cleaned_question
                   (language request_body)) ;;
        match prefiltered_doc with
        | None => ret (Response 404)
        | Some doc =>
            model_inference_result <-
              await (_get_model_inference_result
                       services (id (user request_body)) cleaned_question doc
                       (language request_body)) ;;
            cleaned_answer <- clean_answer_of model_inference_result ;;
            if negb (_check_answer_validity (Some cleaned_answer)
                                            (language request_body))
            then ret (Response 404)
            else
              sensitive <-
                await (_answer_has_sensitive_content
                         services (id (user request_body)) cleaned_answer) ;;
              if sensitive : bool then ret (Response 400)
              else
                tid <- get_transaction_id ;;
                ret (Answer {| answer := cleaned_answer;
                               question := cleaned_question;
                               answer_validity := "valid";
                               transaction_id := tid;
                               is_gs_answer := false;
                               question_uuid := question_uuid |})
        end
    end.

(** ** What the client receives *)

Inductive Body : Type :=
| Empty
| Json (r : InferResponse)
| ErrorDetail (d : string)
| InternalServerError.

(** The status line: the code of a bare response, 200 for a returned
    [InferResponse], the code of a raised [HTTPException], and the server
    error 500 the framework answers when another exception leaves the
    endpoint. *)
Definition http_status (r : Result Reply) : Z :=
  match r with
  | Ok (Response code) => code
  | Ok (Answer _) => 200
  | Raise e => status_code e
  | Unhandled _ => 500
  end.

Definition http_body (r : Result Reply) : Body :=
  match r with
  | Ok (Response _) => Empty
  | Ok (Answer a) => Json a
  | Raise e => ErrorDetail (detail e)
  | Unhandled _ => InternalServerError
  end.

(** Which services a run has called. *)
Definition prefiltering_called (s : State) : bool :=
  existsb is_prefiltering_call (calls s).

Definition inference_called (s : State) : bool :=
  existsb is_inference_call (calls s).

Definition sensitivity_calls (s : State) : nat :=
  List.length (filter is_sensitivity_call (calls s)).

(** The state in which [infer] starts: the request's transaction and no
    request sent to a service yet. *)
Definition start (tr : Transaction.t) : State :=
  {| transaction := tr; calls := [] |}.

(** The request [_get_answer_from_paraphrase] sends for a request body. *)
Definition paraphrase_request (request_body : InferRequest) : ParaphraseServiceRequest :=
  {| question_content_str := _clean_question (query request_body);
     req_course_id := course_id request_body |}.

(** The exception a service raises on a call, if it raises. *)
Definition service_error (services : Services) (c : Call) : option PyException :=
  match c with
  | CallSensitivity q u =>
      match sensitive_content_detection_service services q u with
      | Raises e => Some e | Returns _ => None
      end
  | CallParaphrase r =>
      match paraphrase_service services r with
      | Raises e => Some e | Returns _ => None
      end
  | CallPrefiltering q l ids =>
      match prefiltering_service services q l ids with
      | Raises e => Some e | Returns _ => None
      end
  | CallInference q d u l =>
      match infer_service services q d u l with
      | Raises e => Some e | Returns _ => None
      end
  end.

(** The status the error taxonomy gives to a failure of each service; a
    failure of the paraphrase service has none. *)
Definition fatal_status (c : Call) : option Z :=
  match c with
  | CallSensitivity _ _ => Some 500
  | CallPrefiltering _ _ _ => Some 412
  | CallInference _ _ _ _ => Some 400
  | CallParaphrase _ => None
  end.

(** ** A scripted deployment

    Services that answer from a script: one verdict for the question
    "What is the capital of France?", another for every other text, and a
    fixed answer of each of the other services; the sensitivity service
    answers the question before the paraphrase service does. *)

Definition demo_request : InferRequest :=
  {| query := "  What is the capital of France? ";
     course_id := "geo-101";
     user := {| id := "u-17" |};
     language := EN;
     allow_annotation := false;
     client := "web" |}.

Definition demo_transaction : Transaction.t :=
  {| Transaction.transaction_id := "tx-1";
     Transaction.should_store := false;
     Transaction.recorded := [] |}.

Definition scripted
    (question_verdict answer_verdict : ServiceResult ScdResponse)
    (paraphrase : ServiceResult (option ParaphraseServiceResponse))
    (retrieved : ServiceResult (option Document))
    (inferred : ServiceResult InferenceReply) : Services :=
  {| sensitive_content_detection_service := fun q _ =>
       if String.eqb q "What is the capital of France?"
       then question_verdict else answer_verdict;
     paraphrase_service := fun _ => paraphrase;
     prefiltering_service := fun _ _ _ => retrieved;
     infer_service := fun _ _ _ _ => inferred;
     uuid4 := 42%N;
     paraphrase_answers_first := false |}.

Definition verdict (v : string) : ServiceResult ScdResponse :=
  Returns {| sensitivity := v; scd_model_name := "scd-v1" |}.

Definition down {A : Type} : ServiceResult A := Raises (Exception "timeout").

Definition paris_match : ServiceResult (option ParaphraseServiceResponse) :=
  Returns (Some {| gs_answer_content_str := "Paris" |}).

Definition demo_doc : Document :=
  {| doc_id := "doc-3"; content := "Paris is the capital of France." |}.

Definition says (a : string) : ServiceResult InferenceReply :=
  Returns {| inference_answer := a; model_context := {| model_name := "qa-v2" |} |}.

(** ** Running the pipeline symbolically *)

(** The validator and the cleaning stay folded while a run is simplified. *)
Arguments _check_answer_validity : simpl never.
Arguments _clean_question : simpl never.
Arguments _clean_answer : simpl never.

Ltac unfold_pipeline :=
  unfold infer, gather, await, clean_answer_of,
    _question_has_sensitive_content, _answer_has_sensitive_content,
    _run_sensitive_content_detection, _get_answer_from_paraphrase,
    _get_prefiltered_documents_from_elasticsearch,
    _get_model_inference_result, qa_service_failed, then_, well_formed,
    bind, ret, raise, unhandled, record, send, set_should_store,
    get_transaction_id, start, paraphrase_request,
    prefiltering_called, inference_called, sensitivity_calls in *.

(** Uses a known service answer, or a known test, where the run branches
    on it. *)
Ltac use_known :=
  match goal with
  | H : ?x = _ |- context [match ?x with _ => _ end] => rewrite H
  | H : ?x = _ |- context [if ?x then _ else _] => rewrite H
  | H : ?x = _ |- context [if negb ?x then _ else _] => rewrite H
  end; cbn.

(** Splits on a service answer the hypotheses leave open. *)
Ltac split_unknown :=
  match goal with
  | |- context [if paraphrase_answers_first ?s then _ else _] =>
      destruct (paraphrase_answers_first s) eqn:?
  | |- context [match sensitive_content_detection_service ?s ?q ?u with _ => _ end] =>
      destruct (sensitive_content_detection_service s q u) eqn:?
  | |- context [match paraphrase_service ?s ?r with _ => _ end] =>
      destruct (paraphrase_service s r) as [[?|]|?] eqn:?
  | |- context [match prefiltering_service ?s ?q ?l ?c with _ => _ end] =>
      destruct (prefiltering_service s q l c) as [[?|]|?] eqn:?
  | |- context [match infer_service ?s ?q ?d ?u ?l with _ => _ end] =>
      destruct (infer_service s q d u l) as [[[[?|]|] [[?|]|]]|?] eqn:?
  end; cbn.

Ltac run_pipeline := unfold_pipeline; cbn; repeat (use_known || split_unknown).

(** Splits on a test the hypotheses leave open. *)
Ltac split_test :=
  match goal with
  | |- context [if negb ?b then _ else _] => destruct b eqn:?
  end; cbn.

Ltac explore_pipeline :=
  unfold_pipeline; cbn; repeat (use_known || split_unknown || split_test).

(** Finds which of the listed calls a call of the run is. *)
Ltac which_call H :=
  cbn in H;
  repeat (destruct H as [H|H]; [try subst|]);
  try contradiction.

Lemma eqb_SAFE_false (v : string) : v <> "SAFE" -> String.eqb v "SAFE" = false.
Proof. intros H. apply String.eqb_neq. exact H. Qed.

Lemma eqb_SAFE_true (v : string) : v = "SAFE" -> String.eqb v "SAFE" = true.
Proof. intros H. apply String.eqb_eq. exact H. Qed.

(** ** Cleaning *)

Lemma lstrip_idempotent (s : string) : PyStr.lstrip (PyStr.lstrip s) = PyStr.lstrip s.
Proof.
  induction s as [|c s IH]; cbn; [reflexivity|].
  destruct (PyStr.isspace c) eqn:Hc; [exact IH|].
  cbn. rewrite Hc. reflexivity.
Qed.

Lemma rstrip_idempotent (s : string) : PyStr.rstrip (PyStr.rstrip s) = PyStr.rstrip s.
Proof.
  induction s as [|c s IH]; cbn; [reflexivity|].
  destruct (PyStr.rstrip s) as [|d r] eqn:Hr.
  - destruct (PyStr.isspace c) eqn:Hc; cbn; [reflexivity|].
    rewrite Hc. reflexivity.
  - change (PyStr.rstrip (String c (String d r))) with
      (match PyStr.rstrip (String d r) with
       | EmptyString =>
           if PyStr.isspace c then EmptyString else String c EmptyString
       | String d' r' => String c (String d' r')
       end).
    rewrite IH. reflexivity.
Qed.

(** Trimming on the right keeps a first character that is not white
    space. *)
Lemma rstrip_keeps_head (c : ascii) (s : string) :
  PyStr.isspace c = false ->
  exists r, PyStr.rstrip (String c s) = String c r.
Proof.
  intros Hc. cbn. destruct (PyStr.rstrip s); [rewrite Hc|]; eauto.
Qed.

Lemma lstrip_head (s : string) :
  PyStr.lstrip s = EmptyString \/
  exists c t, PyStr.lstrip s = String c t /\ PyStr.isspace c = false.
Proof.
  induction s as [|c s IH]; cbn; [auto|].
  destruct (PyStr.isspace c) eqn:Hc; [exact IH|]. right. eauto.
Qed.

(** [s.strip().strip() == s.strip()] *)
Lemma strip_idempotent (s : string) : PyStr.strip (PyStr.strip s) = PyStr.strip s.
Proof.
  unfold PyStr.strip.
  destruct (lstrip_head s) as [H|(c & t & H & Hc)]; rewrite H.
  - reflexivity.
  - destruct (rstrip_keeps_head c t Hc) as [r Hr]. rewrite Hr.
    cbn [PyStr.lstrip]. rewrite Hc, <- Hr. apply rstrip_idempotent.
Qed.

Lemma clean_question_idempotent (q : string) :
  _clean_question (_clean_question q) = _clean_question q.
Proof. apply strip_idempotent. Qed.

Lemma clean_answer_idempotent (a : string) :
  _clean_answer (_clean_answer a) = _clean_answer a.
Proof. apply strip_idempotent. Qed.

(** ** Sensitive questions *)

(** C1. When the sensitivity service classifies the cleaned question as
    anything but SAFE, the endpoint returns the bare response 400 with an
    empty body, whatever the paraphrase service answered (a match
    included); the only requests sent are the sensitivity check and the
    paraphrase lookup, so neither retrieval nor inference is invoked. *)
Theorem sensitive_question_is_rejected
    (services : Services) (request_body : InferRequest) (tr : Transaction.t)
    (scd : ScdResponse) :
  sensitive_content_detection_service services
    (_clean_question (query request_body)) (id (user request_body)) = Returns scd ->
  sensitivity scd <> "SAFE" ->
  let out := infer services request_body (start tr) in
  fst out = Ok (Response 400) /\
  http_status (fst out) = 400 /\
  http_body (fst out) = Empty /\
  calls (snd out) =
    [CallSensitivity (_clean_question (query request_body)) (id (user request_body));
     CallParaphrase (paraphrase_request request_body)] /\
  prefiltering_called (snd out) = false /\
  inference_called (snd out) = false.
Proof.
  intros Hscd Hunsafe out. subst out.
  apply eqb_SAFE_false in Hunsafe.
  run_pipeline; repeat split; reflexivity.
Qed.

Lemma sensitive_question_is_rejected_witness :
  let out := infer (scripted (verdict "UNSAFE") (verdict "SAFE") paris_match
                             (Returns (Some demo_doc)) (says "Paris"))
                   demo_request (start demo_transaction) in
  fst out = Ok (Response 400) /\
  http_status (fst out) = 400 /\
  http_body (fst out) = Empty /\
  calls (snd out) =
    [CallSensitivity "What is the capital of France?" "u-17";
     CallParaphrase {| question_content_str := "What is the capital of France?";
                       req_course_id := "geo-101" |}] /\
  prefiltering_called (snd out) = false /\
  inference_called (snd out) = false.
Proof.
  apply (sensitive_question_is_rejected
           (scripted (verdict "UNSAFE") (verdict "SAFE") paris_match
                     (Returns (Some demo_doc)) (says "Paris"))
           demo_request demo_transaction
           {| sensitivity := "UNSAFE"; scd_model_name := "scd-v1" |}).
  - reflexivity.
  - discriminate.
Defined.

(** ** Gold-standard answers *)

(** C2. When the cleaned question is classified SAFE and the paraphrase
    service returns a match, the endpoint returns an [InferResponse]
    (status 200) whose answer is the match's [gs_answer_content_str]
    unchanged and whose [is_gs_answer] is true; only the sensitivity check
    and the paraphrase lookup were called. *)
Theorem paraphrase_match_is_gold_standard
    (services : Services) (request_body : InferRequest) (tr : Transaction.t)
    (scd : ScdResponse) (found : ParaphraseServiceResponse) :
  sensitive_content_detection_service services
    (_clean_question (query request_body)) (id (user request_body)) = Returns scd ->
  sensitivity scd = "SAFE" ->
  paraphrase_service services (paraphrase_request request_body) = Returns (Some found) ->
  let out := infer services request_body (start tr) in
  fst out = Ok (Answer {| answer := gs_answer_content_str found;
                          question := _clean_question (query request_body);
                          answer_validity := "valid";
                          transaction_id := Transaction.transaction_id tr;
                          is_gs_answer := true;
                          question_uuid := uuid4 services |}) /\
  http_status (fst out) = 200 /\
  calls (snd out) =
    [CallSensitivity (_clean_question (query request_body)) (id (user request_body));
     CallParaphrase (paraphrase_request request_body)] /\
  prefiltering_called (snd out) = false /\
  inference_called (snd out) = false.
Proof.
  intros Hscd Hsafe Hfound out. subst out.
  apply eqb_SAFE_true in Hsafe.
  run_pipeline; repeat split; reflexivity.
Qed.

Lemma paraphrase_match_is_gold_standard_witness :
  let out := infer (scripted (verdict "SAFE") (verdict "SAFE") paris_match down down)
                   demo_request (start demo_transaction) in
  fst out = Ok (Answer {| answer := "Paris";
                          question := "What is the capital of France?";
                          answer_validity := "valid";
                          transaction_id := "tx-1";
                          is_gs_answer := true;
                          question_uuid := 42%N |}) /\
  http_status (fst out) = 200 /\
  calls (snd out) =
    [CallSensitivity "What is the capital of France?" "u-17";
     CallParaphrase {| question_content_str := "What is the capital of France?";
                       req_course_id := "geo-101" |}] /\
  prefiltering_called (snd out) = false /\
  inference_called (snd out) = false.
Proof.
  apply (paraphrase_match_is_gold_standard
           (scripted (verdict "SAFE") (verdict "SAFE") paris_match down down)
           demo_request demo_transaction
           {| sensitivity := "SAFE"; scd_model_name := "scd-v1" |}
           {| gs_answer_content_str := "Paris" |}); reflexivity.
Defined.

(** ** The paraphrase lookup fails open *)

(** The wrapper never raises: whatever the paraphrase service does, the
    coroutine returns. *)
Lemma paraphrase_wrapper_returns
    (services : Services) (course cleaned_question : string) (s : State) :
  exists r, fst (_get_answer_from_paraphrase services course cleaned_question s) = Ok r.
Proof.
  unfold_pipeline.
  destruct (paraphrase_service services _) as [[found|]|e]; cbn; eauto.
Qed.

(** C3. Two deployments that differ only in the paraphrase service, which
    raises in the first and returns no match in the second, give the same
    result of the endpoint and send the same requests to the services; in
    the first the wrapper returns [None] and the result is not the raised
    exception of the paraphrase service. *)
Theorem paraphrase_lookup_fails_open
    (failing empty : Services) (request_body : InferRequest)
    (tr : Transaction.t) (e : PyException) :
  (forall q u, sensitive_content_detection_service failing q u =
               sensitive_content_detection_service empty q u) ->
  (forall q l ids, prefiltering_service failing q l ids =
                   prefiltering_service empty q l ids) ->
  (forall q d u l, infer_service failing q d u l = infer_service empty q d u l) ->
  uuid4 failing = uuid4 empty ->
  paraphrase_service failing (paraphrase_request request_body) = Raises e ->
  paraphrase_service empty (paraphrase_request request_body) = Returns None ->
  fst (infer failing request_body (start tr)) =
    fst (infer empty request_body (start tr)) /\
  calls (snd (infer failing request_body (start tr))) =
    calls (snd (infer empty request_body (start tr))) /\
  forall s,
    fst (_get_answer_from_paraphrase failing (course_id request_body)
           (_clean_question (query request_body)) s) = Ok None.
Proof.
  intros Hscd Hpre Hinf Huuid Hfail Hempty.
  split; [|split].
  3: { intros s. unfold_pipeline. cbn. rewrite Hfail. reflexivity. }
  all: unfold_pipeline; cbn; rewrite Hfail, Hempty, Huuid; cbn;
    repeat (first [ rewrite Hscd | rewrite Hpre | rewrite Hinf
                  | split_unknown | split_test ]);
    reflexivity.
Qed.

Lemma paraphrase_lookup_fails_open_witness :
  let failing := scripted (verdict "SAFE") (verdict "SAFE") down
                          (Returns (Some demo_doc)) (says " Paris ") in
  let empty := scripted (verdict "SAFE") (verdict "SAFE") (Returns None)
                        (Returns (Some demo_doc)) (says " Paris ") in
  fst (infer failing demo_request (start demo_transaction)) =
    fst (infer empty demo_request (start demo_transaction)) /\
  calls (snd (infer failing demo_request (start demo_transaction))) =
    calls (snd (infer empty demo_request (start demo_transaction))) /\
  forall s,
    fst (_get_answer_from_paraphrase failing (course_id demo_request)
           (_clean_question (query demo_request)) s) = Ok None.
Proof.
  apply (paraphrase_lookup_fails_open
           (scripted (verdict "SAFE") (verdict "SAFE") down
                     (Returns (Some demo_doc)) (says " Paris "))
           (scripted (verdict "SAFE") (verdict "SAFE") (Returns None)
                     (Returns (Some demo_doc)) (says " Paris "))
           demo_request demo_transaction (Exception "timeout"));
    intros; reflexivity.
Defined.

(** ** The answer validator *)

Lemma mem_two (x a b : string) :
  PyStr.mem x [a; b] = true <-> x = a \/ x = b.
Proof.
  unfold PyStr.mem. cbn. rewrite orb_false_r, orb_true_iff, !String.eqb_eq.
  reflexivity.
Qed.

(** The validator rejects exactly the empty answer and the answers whose
    lower-cased text is one of the two sentinels of the language. *)
Lemma validity_false_iff (a s1 s2 : string) (lang : Language) :
  (if Language_eqb lang EN then ["unknown"; "unknown."]
   else ["unbekannt"; "unbekannt."]) = [s1; s2] ->
  _check_answer_validity (Some a) lang = false <->
  a = "" \/ PyStr.lower a = s1 \/ PyStr.lower a = s2.
Proof.
  intros Hs. unfold _check_answer_validity. rewrite Hs.
  destruct (String.eqb_spec a "") as [Hempty|Hne].
  - split; auto.
  - destruct (PyStr.mem (PyStr.lower a) [s1; s2]) eqn:Hmem.
    + apply mem_two in Hmem. split; auto.
    + split; [discriminate|].
      intros [H|H]; [contradiction|].
      apply mem_two in H. congruence.
Qed.

(** C4, as the code has it. The validator does not trim: it rejects an
    answer that is empty or whose lower-cased text is "unknown" or
    "unknown." for EN. "Unknown" and "UNKNOWN." are rejected; " unknown "
    is accepted by the validator itself, and is rejected once it went
    through [_clean_answer], as the endpoint does before validating. *)
Theorem validator_rejects_unknown_without_trimming :
  (forall a : string,
     _check_answer_validity (Some a) EN = false <->
     a = "" \/ PyStr.lower a = "unknown" \/ PyStr.lower a = "unknown.") /\
  _check_answer_validity (Some "Unknown") EN = false /\
  _check_answer_validity (Some "UNKNOWN.") EN = false /\
  _check_answer_validity (Some " unknown ") EN = true /\
  _check_answer_validity (Some (_clean_answer " unknown ")) EN = false.
Proof.
  split; [|repeat split; reflexivity].
  intros a. apply validity_false_iff. reflexivity.
Qed.

(** C4 as stated fails: the validator accepts " unknown ". *)
Lemma validator_accepts_padded_unknown :
  ~ (_check_answer_validity (Some "Unknown") EN = false /\
     _check_answer_validity (Some "UNKNOWN.") EN = false /\
     _check_answer_validity (Some " unknown ") EN = false).
Proof. intros [_ [_ H]]. vm_compute in H. discriminate H. Qed.

(** C9. The sentinels depend on the language: for DE the validator rejects
    the answers whose lower-cased text is "unbekannt" or "unbekannt." (so
    "Unbekannt" too) and accepts "unknown"; for EN it accepts
    "unbekannt". *)
Theorem validator_sentinels_are_language_scoped :
  (forall a : string,
     _check_answer_validity (Some a) DE = false <->
     a = "" \/ PyStr.lower a = "unbekannt" \/ PyStr.lower a = "unbekannt.") /\
  _check_answer_validity (Some "unbekannt") DE = false /\
  _check_answer_validity (Some "unbekannt.") DE = false /\
  _check_answer_validity (Some "Unbekannt") DE = false /\
  _check_answer_validity (Some "unknown") DE = true /\
  _check_answer_validity (Some "unbekannt") EN = true.
Proof.
  split; [|repeat split; reflexivity].
  intros a. apply validity_false_iff. reflexivity.
Qed.

(** ** Fatal failures of the services *)

(** C5. Whenever a run of the endpoint has called a service and the service
    raises on that call, the endpoint raises an [HTTPException] whose
    status is fixed by the service -- 500 for sensitive content detection
    (for the question as for the answer), 412 for prefiltering, 400 for
    inference -- and whose body is a short detail string, not an answer. *)
Theorem fatal_failure_has_fixed_status
    (services : Services) (request_body : InferRequest) (tr : Transaction.t)
    (c : Call) (e : PyException) (code : Z) :
  let out := infer services request_body (start tr) in
  In c (calls (snd out)) ->
  service_error services c = Some e ->
  fatal_status c = Some code ->
  http_status (fst out) = code /\
  (exists h, fst out = Raise h /\ status_code h = code /\
             http_body (fst out) = ErrorDetail (detail h) /\
             (String.length (detail h) <= 56)%nat) /\
  (forall r, fst out <> Ok (Answer r)).
Proof.
  intros out. subst out.
  explore_pipeline; intros Hin Herr Hcode; which_call Hin;
    cbn in Herr, Hcode;
    repeat match goal with
           | H : ?x = _, H' : context [match ?x with _ => _ end] |- _ =>
               rewrite H in H'
           end;
    try discriminate;
    inversion Hcode; subst; clear Hcode;
    (split; [reflexivity|]);
    (split; [eexists; repeat split; cbn; lia | intros r Hr; discriminate Hr]).
Qed.

Lemma fatal_failure_has_fixed_status_witness :
  http_status (fst (infer (scripted down (verdict "SAFE") paris_match
                                    (Returns (Some demo_doc)) (says "Paris"))
                          demo_request (start demo_transaction))) = 500 /\
  http_status (fst (infer (scripted (verdict "SAFE") down (Returns None)
                                    (Returns (Some demo_doc)) (says "Paris"))
                          demo_request (start demo_transaction))) = 500 /\
  http_status (fst (infer (scripted (verdict "SAFE") (verdict "SAFE") (Returns None)
                                    down (says "Paris"))
                          demo_request (start demo_transaction))) = 412 /\
  http_status (fst (infer (scripted (verdict "SAFE") (verdict "SAFE") (Returns None)
                                    (Returns (Some demo_doc)) down)
                          demo_request (start demo_transaction))) = 400.
Proof.
  split; [|split; [|split]].
  - refine (proj1 (fatal_failure_has_fixed_status _ _ _
             (CallSensitivity "What is the capital of France?" "u-17")
             (Exception "timeout") 500 _ _ _));
      [vm_compute; auto 10 | reflexivity | reflexivity].
  - refine (proj1 (fatal_failure_has_fixed_status _ _ _
             (CallSensitivity "Paris" "u-17")
             (Exception "timeout") 500 _ _ _));
      [vm_compute; auto 10 | reflexivity | reflexivity].
  - refine (proj1 (fatal_failure_has_fixed_status _ _ _
             (CallPrefiltering "What is the capital of France?" EN ["geo-101"])
             (Exception "timeout") 412 _ _ _));
      [vm_compute; auto 10 | reflexivity | reflexivity].
  - refine (proj1 (fatal_failure_has_fixed_status _ _ _
             (CallInference "What is the capital of France?" demo_doc "u-17" EN)
             (Exception "timeout") 400 _ _ _));
      [vm_compute; auto 10 | reflexivity | reflexivity].
Defined.

(** ** No document, invalid answer *)

(** C6. When the question is SAFE, the paraphrase lookup gave no match and
    the prefiltering service returns without a document, the endpoint
    returns the bare response 404 and the inference service is not called;
    had the prefiltering service raised instead, the endpoint would raise
    with status 412. *)
Theorem empty_retrieval_is_not_found
    (services : Services) (request_body : InferRequest) (tr : Transaction.t)
    (scd : ScdResponse) :
  sensitive_content_detection_service services
    (_clean_question (query request_body)) (id (user request_body)) = Returns scd ->
  sensitivity scd = "SAFE" ->
  (forall found,
     paraphrase_service services (paraphrase_request request_body)
     <> Returns (Some found)) ->
  let out := infer services request_body (start tr) in
  (prefiltering_service services (_clean_question (query request_body))
     (language request_body) [course_id request_body] = Returns None ->
   fst out = Ok (Response 404) /\
   http_status (fst out) = 404 /\
   http_body (fst out) = Empty /\
   calls (snd out) =
     [CallSensitivity (_clean_question (query request_body)) (id (user request_body));
      CallParaphrase (paraphrase_request request_body);
      CallPrefiltering (_clean_question (query request_body))
        (language request_body) [course_id request_body]] /\
   inference_called (snd out) = false) /\
  (forall e,
     prefiltering_service services (_clean_question (query request_body))
       (language request_body) [course_id request_body] = Raises e ->
     http_status (fst out) = 412 /\
     fst out <> Ok (Response 404) /\
     inference_called (snd out) = false).
Proof.
  intros Hscd Hsafe Hnone out. subst out.
  apply eqb_SAFE_true in Hsafe.
  split; [intros Hpre | intros e Hpre];
    run_pipeline;
    try (exfalso; eapply Hnone; reflexivity);
    repeat split; try reflexivity; discriminate.
Qed.

Lemma empty_retrieval_is_not_found_witness :
  (let out := infer (scripted (verdict "SAFE") (verdict "SAFE") (Returns None)
                              (Returns None) (says "Paris"))
                    demo_request (start demo_transaction) in
   fst out = Ok (Response 404) /\ inference_called (snd out) = false) /\
  (let out := infer (scripted (verdict "SAFE") (verdict "SAFE") down
                              down (says "Paris"))
                    demo_request (start demo_transaction) in
   http_status (fst out) = 412 /\ inference_called (snd out) = false).
Proof.
  split.
  - destruct (empty_retrieval_is_not_found
                (scripted (verdict "SAFE") (verdict "SAFE") (Returns None)
                          (Returns None) (says "Paris"))
                demo_request demo_transaction
                {| sensitivity := "SAFE"; scd_model_name := "scd-v1" |})
      as [Hempty _].
    + reflexivity.
    + reflexivity.
    + intros found H. discriminate H.
    + destruct Hempty as (H1 & _ & _ & _ & H2); [reflexivity|].
      split; assumption.
  - destruct (empty_retrieval_is_not_found
                (scripted (verdict "SAFE") (verdict "SAFE") down
                          down (says "Paris"))
                demo_request demo_transaction
                {| sensitivity := "SAFE"; scd_model_name := "scd-v1" |})
      as [_ Hfail].
    + reflexivity.
    + reflexivity.
    + intros found H. discriminate H.
    + destruct (Hfail (Exception "timeout")) as (H1 & _ & H2); [reflexivity|].
      split; assumption.
Defined.

(** C7. The code breaks the claim on an answer that is [None]. When the run
    reaches inference (question SAFE, no paraphrase match, a document
    retrieved) and the reply of the inference service holds [None] under
    "answer", the endpoint calls [strip] on it: an [AttributeError] leaves
    the endpoint (a server error 500), the validator is never asked, and
    the outcome is not the bare response 404, although the validator
    itself rejects [None]. *)
Theorem none_answer_crashes_before_validation
    (services : Services) (request_body : InferRequest) (tr : Transaction.t)
    (scd : ScdResponse) (doc : Document) (reply : InferenceReply)
    (name : string) :
  sensitive_content_detection_service services
    (_clean_question (query request_body)) (id (user request_body)) = Returns scd ->
  sensitivity scd = "SAFE" ->
  (forall found,
     paraphrase_service services (paraphrase_request request_body)
     <> Returns (Some found)) ->
  prefiltering_service services (_clean_question (query request_body))
    (language request_body) [course_id request_body] = Returns (Some doc) ->
  infer_service services (_clean_question (query request_body)) doc
    (id (user request_body)) (language request_body) = Returns reply ->
  reply_model_context reply = Some (Some name) ->
  reply_answer reply = Some None ->
  let out := infer services request_body (start tr) in
  fst out =
    Unhandled (AttributeError "'NoneType' object has no attribute 'strip'") /\
  fst out <> Ok (Response 404) /\
  http_status (fst out) = 500 /\
  _check_answer_validity None (language request_body) = false /\
  calls (snd out) =
    [CallSensitivity (_clean_question (query request_body)) (id (user request_body));
     CallParaphrase (paraphrase_request request_body);
     CallPrefiltering (_clean_question (query request_body))
       (language request_body) [course_id request_body];
     CallInference (_clean_question (query request_body)) doc
       (id (user request_body)) (language request_body)].
Proof.
  intros Hscd Hsafe Hnone Hpre Hinf Hname Hanswer out. subst out.
  apply eqb_SAFE_true in Hsafe.
  destruct reply as [reply_a reply_m]. cbn in Hname, Hanswer. subst.
  run_pipeline;
    try (exfalso; eapply Hnone; reflexivity);
    (split; [reflexivity | split; [discriminate | split; [reflexivity |
       split; [destruct (language request_body); reflexivity | reflexivity]]]]).
Qed.

Lemma none_answer_crashes_before_validation_witness :
  let out :=
    infer (scripted (verdict "SAFE") (verdict "SAFE") (Returns None)
                    (Returns (Some demo_doc))
                    (Returns {| reply_answer := Some None;
                                reply_model_context := Some (Some "qa-v2"%string) |}))
          demo_request (start demo_transaction) in
  fst out =
    Unhandled (AttributeError "'NoneType' object has no attribute 'strip'") /\
  fst out <> Ok (Response 404) /\
  http_status (fst out) = 500 /\
  _check_answer_validity None EN = false /\
  calls (snd out) =
    [CallSensitivity "What is the capital of France?" "u-17";
     CallParaphrase {| question_content_str := "What is the capital of France?";
                       req_course_id := "geo-101" |};
     CallPrefiltering "What is the capital of France?" EN ["geo-101"];
     CallInference "What is the capital of France?" demo_doc "u-17" EN].
Proof.
  apply (none_answer_crashes_before_validation
           (scripted (verdict "SAFE") (verdict "SAFE") (Returns None)
                     (Returns (Some demo_doc))
                     (Returns {| reply_answer := Some None;
                                 reply_model_context := Some (Some "qa-v2"%string) |}))
           demo_request demo_transaction
           {| sensitivity := "SAFE"; scd_model_name := "scd-v1" |}
           demo_doc
           {| reply_answer := Some None;
              reply_model_context := Some (Some "qa-v2"%string) |}
           "qa-v2"%string);
    try reflexivity.
  intros found H. discriminate H.
Defined.

(** ** The successful path *)



(** ** The verdict of the sensitivity service *)

(** C10. Both sensitivity wrappers return true exactly when the verdict
    string differs from "SAFE", and a check made during a run whose verdict
    is anything else ("UNSAFE", "safe", an unknown value) ends the run with
    the bare response 400. *)
Theorem verdict_other_than_SAFE_rejects
    (services : Services) (request_body : InferRequest) (tr : Transaction.t)
    (text uid : string) (scd : ScdResponse) :
  let out := infer services request_body (start tr) in
  In (CallSensitivity text uid) (calls (snd out)) ->
  sensitive_content_detection_service services text uid = Returns scd ->
  (forall s, fst (_question_has_sensitive_content services uid text s) =
             Ok (negb (String.eqb (sensitivity scd) "SAFE"))) /\
  (forall s, fst (_answer_has_sensitive_content services uid text s) =
             Ok (negb (String.eqb (sensitivity scd) "SAFE"))) /\
  (negb (String.eqb (sensitivity scd) "SAFE") = true <-> sensitivity scd <> "SAFE") /\
  (sensitivity scd <> "SAFE" ->
   fst out = Ok (Response 400) /\ http_status (fst out) = 400 /\
   http_body (fst out) = Empty).
Proof.
  intros out Hin Hscd.
  split; [|split; [|split]].
  - intros s. unfold_pipeline. rewrite Hscd. reflexivity.
  - intros s. unfold_pipeline. rewrite Hscd. reflexivity.
  - rewrite negb_true_iff. apply String.eqb_neq.
  - intros Hunsafe. apply eqb_SAFE_false in Hunsafe.
    subst out. revert Hin.
    explore_pipeline; intros Hin; which_call Hin;
      try discriminate;
      repeat match goal with
             | H : ?x = _, H' : ?x = _ |- _ => rewrite H in H'
             end;
      try discriminate;
      repeat match goal with
             | H : Returns _ = Returns _ |- _ => inversion H; subst; clear H
             end;
      try congruence;
      repeat split; reflexivity.
Qed.

Lemma verdict_other_than_SAFE_rejects_witness :
  let out := infer (scripted (verdict "SAFE") (verdict "safe") (Returns None)
                             (Returns (Some demo_doc)) (says "Paris"))
                   demo_request (start demo_transaction) in
  fst out = Ok (Response 400) /\ http_status (fst out) = 400 /\
  http_body (fst out) = Empty.
Proof.
  destruct (verdict_other_than_SAFE_rejects
              (scripted (verdict "SAFE") (verdict "safe") (Returns None)
                        (Returns (Some demo_doc)) (says "Paris"))
              demo_request demo_transaction "Paris" "u-17"
              {| sensitivity := "safe"; scd_model_name := "scd-v1" |})
    as (_ & _ & _ & Hreject).
  - vm_compute. auto 10.
  - reflexivity.
  - apply Hreject. discriminate.
Defined.

(** * Further properties of the code *)

(** ** What cleaning removes *)

Lemma lstrip_split (s : string) :
  exists pre, s = (pre ++ PyStr.lstrip s)%string /\ PyStr.all_space pre = true.
Proof.
  induction s as [|c s (pre & Hs & Hpre)]; cbn.
  - exists ""%string. split; reflexivity.
  - destruct (PyStr.isspace c) eqn:Hc.
    + exists (String c pre). cbn. rewrite Hc, Hpre, <- Hs. split; reflexivity.
    + exists ""%string. split; reflexivity.
Qed.

Lemma rstrip_split (s : string) :
  exists post, s = (PyStr.rstrip s ++ post)%string /\ PyStr.all_space post = true.
Proof.
  induction s as [|c s (post & Hs & Hpost)]; cbn.
  - exists ""%string. split; reflexivity.
  - destruct (PyStr.rstrip s) as [|d r] eqn:Hr.
    + destruct (PyStr.isspace c) eqn:Hc.
      * exists (String c post). cbn in *. rewrite Hc, Hpost, <- Hs.
        split; reflexivity.
      * exists post. cbn in *. subst post. split; [reflexivity|exact Hpost].
    + exists post. cbn in *. rewrite <- Hs. split; [reflexivity|exact Hpost].
Qed.

Lemma rstrip_empty_iff (s : string) :
  PyStr.rstrip s = ""%string <-> PyStr.all_space s = true.
Proof.
  induction s as [|c s IH]; cbn; [tauto|].
  destruct (PyStr.rstrip s) as [|d r] eqn:Hr.
  - destruct (PyStr.isspace c); cbn.
    + rewrite <- IH. tauto.
    + split; discriminate.
  - split; [discriminate|].
    rewrite andb_true_iff. intros [_ H]. apply IH in H. discriminate H.
Qed.

Lemma all_space_lstrip (s : string) :
  PyStr.all_space (PyStr.lstrip s) = PyStr.all_space s.
Proof.
  induction s as [|c s IH]; cbn; [reflexivity|].
  destruct (PyStr.isspace c) eqn:Hc; cbn; [exact IH|].
  rewrite Hc. reflexivity.
Qed.

Lemma strip_empty_iff (s : string) :
  PyStr.strip s = ""%string <-> PyStr.all_space s = true.
Proof.
  unfold PyStr.strip. rewrite rstrip_empty_iff, all_space_lstrip. reflexivity.
Qed.

(** The last character [rstrip] keeps is not white space. *)
Lemma rstrip_last (s t : string) (c : ascii) :
  PyStr.rstrip s = (t ++ String c "")%string -> PyStr.isspace c = false.
Proof.
  revert t. induction s as [|d s IH]; intros t; cbn.
  - destruct t; discriminate.
  - destruct (PyStr.rstrip s) as [|d' r] eqn:Hr.
    + destruct (PyStr.isspace d) eqn:Hd.
      * destruct t; discriminate.
      * destruct t as [|x [|y t]]; cbn; intros H; inversion H; subst.
        exact Hd.
    + destruct t as [|x t]; cbn; intros H; [discriminate H|].
      injection H as _ H'. exact (IH t H').
Qed.

(** X1. Cleaning removes white space at the two ends and nothing else: the
    text is the cleaned text between two runs of white space, and the
    cleaned text neither starts nor ends with white space. This holds for
    [_clean_question] and [_clean_answer] alike. *)
Theorem cleaning_trims_only_the_ends (s : string) :
  (exists pre post,
     s = (pre ++ _clean_answer s ++ post)%string /\
     PyStr.all_space pre = true /\ PyStr.all_space post = true) /\
  (forall c t, _clean_answer s = String c t -> PyStr.isspace c = false) /\
  (forall t c, _clean_answer s = (t ++ String c "")%string ->
               PyStr.isspace c = false) /\
  _clean_question s = _clean_answer s.
Proof.
  unfold _clean_answer, _clean_question, PyStr.strip.
  split; [|split; [|split]].
  - destruct (lstrip_split s) as (pre & Hs & Hpre).
    destruct (rstrip_split (PyStr.lstrip s)) as (post & Hl & Hpost).
    exists pre, post. rewrite <- Hl, <- Hs. auto.
  - intros c t H.
    destruct (lstrip_head s) as [E|(c' & t' & E & Hc')]; rewrite E in H.
    + discriminate H.
    + destruct (rstrip_keeps_head c' t' Hc') as [r Hr].
      rewrite Hr in H. inversion H; subst. exact Hc'.
  - intros t c H. exact (rstrip_last _ _ _ H).
  - reflexivity.
Qed.

(** X2. Cleaning twice is cleaning once, for questions and for answers. *)
Theorem cleaning_is_idempotent (s : string) :
  _clean_question (_clean_question s) = _clean_question s /\
  _clean_answer (_clean_answer s) = _clean_answer s.
Proof. split; apply strip_idempotent. Qed.

(** X3. An answer made of white space only is empty once cleaned, and the
    validator rejects the cleaned answer in every language; conversely the
    cleaned answer is empty only for such an answer. *)
Theorem blank_answer_is_rejected (a : string) (lang : Language) :
  PyStr.all_space a = true ->
  _clean_answer a = ""%string /\
  _check_answer_validity (Some (_clean_answer a)) lang = false /\
  (forall b, _clean_answer b = ""%string -> PyStr.all_space b = true).
Proof.
  intros Hblank.
  assert (H : _clean_answer a = ""%string) by (apply strip_empty_iff; exact Hblank).
  split; [exact H|split].
  - rewrite H. destruct lang; reflexivity.
  - intros b Hb. apply strip_empty_iff. exact Hb.
Qed.

Lemma blank_answer_is_rejected_witness :
  _clean_answer "  	 " = ""%string /\
  _check_answer_validity (Some (_clean_answer "  	 ")) DE = false /\
  (forall b, _clean_answer b = ""%string -> PyStr.all_space b = true).
Proof. apply (blank_answer_is_rejected "  	 " DE). reflexivity. Defined.

(** ** The validator and letter case *)

Lemma lower_char_idempotent (c : ascii) :
  PyStr.lower_char (PyStr.lower_char c) = PyStr.lower_char c.
Proof.
  destruct c as [[] [] [] [] [] [] [] []]; reflexivity.
Qed.

Lemma lower_idempotent (s : string) : PyStr.lower (PyStr.lower s) = PyStr.lower s.
Proof.
  induction s as [|c s IH]; cbn; [reflexivity|].
  rewrite lower_char_idempotent, IH. reflexivity.
Qed.

Lemma lower_empty_iff (s : string) : PyStr.lower s = ""%string <-> s = ""%string.
Proof. destruct s; cbn; split; (reflexivity || discriminate). Qed.

Lemma eqb_empty_lower (s : string) :
  String.eqb (PyStr.lower s) "" = String.eqb s "".
Proof. destruct s; reflexivity. Qed.

(** X4. The validator looks at an answer only through its lower-cased
    text: two answers that differ in letter case only get the same verdict
    in every language, and so does an answer and its lower-cased form. *)
Theorem validator_ignores_case (a b : string) (lang : Language) :
  PyStr.lower a = PyStr.lower b ->
  _check_answer_validity (Some a) lang = _check_answer_validity (Some b) lang /\
  _check_answer_validity (Some (PyStr.lower a)) lang =
    _check_answer_validity (Some a) lang.
Proof.
  intros Hab. unfold _check_answer_validity.
  rewrite lower_idempotent, eqb_empty_lower.
  rewrite <- (eqb_empty_lower a), <- (eqb_empty_lower b), Hab.
  split; reflexivity.
Qed.

Lemma validator_ignores_case_witness :
  _check_answer_validity (Some "UnBeKaNNt.") DE =
    _check_answer_validity (Some "unbekannt.") DE /\
  _check_answer_validity (Some (PyStr.lower "UnBeKaNNt.")) DE =
    _check_answer_validity (Some "UnBeKaNNt.") DE.
Proof. apply (validator_ignores_case "UnBeKaNNt." "unbekannt." DE). reflexivity. Defined.

(** ** The shape of every run *)

(** X5. Whatever the services do, the endpoint calls them in one fixed
    order, each call site at most once: the sensitivity check of the
    cleaned question and the paraphrase lookup always; then possibly
    prefiltering, for the single course of the request; then inference, on
    the very document prefiltering returned; then the sensitivity check of
    the cleaned answer inference returned. *)
Theorem calls_follow_the_pipeline_order
    (services : Services) (request_body : InferRequest) (tr : Transaction.t) :
  let out := infer services request_body (start tr) in
  let q := _clean_question (query request_body) in
  let uid := id (user request_body) in
  let lang := language request_body in
  let opening := [CallSensitivity q uid;
                  CallParaphrase (paraphrase_request request_body)] in
  let retrieval := CallPrefiltering q lang [course_id request_body] in
  calls (snd out) = opening \/
  calls (snd out) = (opening ++ [retrieval])%list \/
  exists doc,
    prefiltering_service services q lang [course_id request_body]
      = Returns (Some doc) /\
    (calls (snd out) = (opening ++ [retrieval; CallInference q doc uid lang])%list \/
     exists res : InferenceResult,
       infer_service services q doc uid lang = Returns res /\
       calls (snd out) =
         (opening ++ [retrieval; CallInference q doc uid lang;
                      CallSensitivity (_clean_answer (inference_answer res)) uid])%list).
Proof.
  intros out q uid lang opening retrieval.
  subst out q uid lang opening retrieval.
  explore_pipeline;
    first [ left; reflexivity
          | right; left; reflexivity
          | right; right; eexists; split;
            [(reflexivity || eassumption) | left; reflexivity]
          | right; right; eexists; split;
            [(reflexivity || eassumption)
            | right; eexists (Build_InferenceResult _ (Build_ModelContext _));
              split; [(reflexivity || (cbn; eassumption)) | reflexivity]] ].
Qed.

(** X6. An answer leaves the endpoint only after the checks it owes: the
    cleaned question was classified SAFE; a gold-standard answer is the
    text of a paraphrase match; a model answer is the cleaned text the
    inference service returned for the retrieved document, accepted by the
    validator and itself classified SAFE. The response carries the cleaned
    question, the transaction identifier and the question uuid. *)
Theorem returned_answer_is_vetted
    (services : Services) (request_body : InferRequest) (tr : Transaction.t)
    (r : InferResponse) :
  fst (infer services request_body (start tr)) = Ok (Answer r) ->
  let q := _clean_question (query request_body) in
  let uid := id (user request_body) in
  let lang := language request_body in
  question r = q /\
  answer_validity r = "valid"%string /\
  transaction_id r = Transaction.transaction_id tr /\
  question_uuid r = uuid4 services /\
  (exists scd,
     sensitive_content_detection_service services q uid = Returns scd /\
     sensitivity scd = "SAFE"%string) /\
  (if is_gs_answer r
   then exists found,
          paraphrase_service services (paraphrase_request request_body)
            = Returns (Some found) /\
          answer r = gs_answer_content_str found
   else exists doc (res : InferenceResult) scd',
          prefiltering_service services q lang [course_id request_body]
            = Returns (Some doc) /\
          infer_service services q doc uid lang = Returns res /\
          answer r = _clean_answer (inference_answer res) /\
          _check_answer_validity (Some (answer r)) lang = true /\
          sensitive_content_detection_service services (answer r) uid
            = Returns scd' /\
          sensitivity scd' = "SAFE"%string).
Proof.
  intros Hout q uid lang. subst q uid lang. revert Hout.
  explore_pipeline; intros Hout; try discriminate Hout;
    injection Hout as <-; cbn;
    repeat match goal with
           | H : String.eqb _ _ = true |- _ => apply String.eqb_eq in H
           end;
    (split; [reflexivity | split; [reflexivity | split; [reflexivity |
       split; [reflexivity | split; [eauto |]]]]]);
    first [ eexists; split; reflexivity
          | eexists; eexists (Build_InferenceResult _ (Build_ModelContext _));
            eexists;
            repeat (split; [first [reflexivity | cbn; eassumption] |]);
            assumption ].
Qed.

Lemma returned_answer_is_vetted_witness :
  exists r,
    fst (infer (scripted (verdict "SAFE") (verdict "SAFE") (Returns None)
                         (Returns (Some demo_doc)) (says " Paris "))
               demo_request (start demo_transaction)) = Ok (Answer r) /\
    is_gs_answer r = false /\
    answer r = "Paris"%string /\
    _check_answer_validity (Some (answer r)) EN = true /\
    question r = "What is the capital of France?"%string.
Proof.
  eexists. split; [reflexivity|].
  pose proof (returned_answer_is_vetted
                (scripted (verdict "SAFE") (verdict "SAFE") (Returns None)
                          (Returns (Some demo_doc)) (says " Paris "))
                demo_request demo_transaction _ eq_refl) as H.
  cbn zeta in H.
  destruct H as (Hq & _ & _ & _ & _ & doc & res & scd' & _ & _ & _ & Hv & _).
  split; [reflexivity | split; [reflexivity | split; [exact Hv | exact Hq]]].
Defined.

(** X7. What the endpoint returns or raises on purpose is fixed: a bare
    response is 400 or 404, and an [HTTPException] is one of three, with a
    status and a detail that do not depend on the exception that was
    caught. The status is 200 exactly when an [InferResponse] is returned.
    Exceptions of other kinds can leave the endpoint; nothing is said of
    them here. *)
Theorem endpoint_outcomes_are_closed
    (services : Services) (request_body : InferRequest) (tr : Transaction.t) :
  let out := infer services request_body (start tr) in
  (forall code, fst out = Ok (Response code) -> code = 400 \/ code = 404) /\
  (forall h, fst out = Raise h ->
     h = {| status_code := 500;
            detail := "Sensitive Content Detection Exception." |} \/
     h = {| status_code := 412;
            detail := "Failed to fetch prefiltered document from ElasticSearch." |} \/
     h = {| status_code := 400; detail := "QAService Exception" |}) /\
  (http_status (fst out) = 200 <-> exists r, fst out = Ok (Answer r)).
Proof.
  intros out. subst out.
  explore_pipeline;
    (split;
     [ intros code H; first [discriminate H | injection H as <-; auto]
     | split;
       [ intros h H; first [discriminate H | injection H as <-; auto]
       | split;
         [ intros H; first [ eexists; reflexivity | discriminate H ]
         | intros [r H]; first [ reflexivity | discriminate H ] ] ] ]).
Qed.

(** ** What a run depends on *)

(** X8. The outcome and the calls depend on the request body only through
    the cleaned question, the course, the user's id and the language:
    white space around the question, [allow_annotation] and [client] change
    neither. *)
Theorem outcome_depends_on_decision_fields
    (services : Services) (r1 r2 : InferRequest) (tr : Transaction.t) :
  _clean_question (query r1) = _clean_question (query r2) ->
  course_id r1 = course_id r2 ->
  id (user r1) = id (user r2) ->
  language r1 = language r2 ->
  fst (infer services r1 (start tr)) = fst (infer services r2 (start tr)) /\
  calls (snd (infer services r1 (start tr))) =
    calls (snd (infer services r2 (start tr))).
Proof.
  intros Hq Hc Hu Hl.
  unfold_pipeline; cbn. rewrite Hq, Hc, Hu, Hl.
  repeat (split_unknown || split_test); split; reflexivity.
Qed.

Lemma outcome_depends_on_decision_fields_witness :
  let padded := {| query := "
 What is the capital of France?	";
                   course_id := "geo-101";
                   user := {| id := "u-17" |};
                   language := EN;
                   allow_annotation := true;
                   client := "mobile" |} in
  let services := scripted (verdict "SAFE") (verdict "SAFE") (Returns None)
                           (Returns (Some demo_doc)) (says "Paris") in
  fst (infer services padded (start demo_transaction)) =
    fst (infer services demo_request (start demo_transaction)) /\
  calls (snd (infer services padded (start demo_transaction))) =
    calls (snd (infer services demo_request (start demo_transaction))).
Proof.
  apply (outcome_depends_on_decision_fields
           (scripted (verdict "SAFE") (verdict "SAFE") (Returns None)
                     (Returns (Some demo_doc)) (says "Paris"))
           {| query := "
 What is the capital of France?	";
              course_id := "geo-101";
              user := {| id := "u-17" |};
              language := EN;
              allow_annotation := true;
              client := "mobile" |}
           demo_request demo_transaction); reflexivity.
Defined.

(** X9. The transaction is a side channel: of everything it holds, a run
    reads the identifier only. Two transactions with the same identifier
    give the same outcome and the same calls, whatever they have recorded
    and whatever their [should_store] flag. *)
Theorem transaction_is_not_read_for_decisions
    (services : Services) (request_body : InferRequest) (tr1 tr2 : Transaction.t) :
  Transaction.transaction_id tr1 = Transaction.transaction_id tr2 ->
  fst (infer services request_body (start tr1)) =
    fst (infer services request_body (start tr2)) /\
  calls (snd (infer services request_body (start tr1))) =
    calls (snd (infer services request_body (start tr2))) /\
  http_status (fst (infer services request_body (start tr1))) =
    http_status (fst (infer services request_body (start tr2))).
Proof.
  intros Hid.
  unfold_pipeline; cbn.
  repeat (split_unknown || split_test); cbn; rewrite ?Hid;
    (split; [reflexivity | split; reflexivity]).
Qed.

Lemma transaction_is_not_read_for_decisions_witness :
  let used := {| Transaction.transaction_id := "tx-1";
                 Transaction.should_store := true;
                 Transaction.recorded :=
                   [FError "Exception in Paraphrasing." (Exception "earlier")] |} in
  let services := scripted (verdict "SAFE") (verdict "SAFE") paris_match
                           down down in
  fst (infer services demo_request (start used)) =
    fst (infer services demo_request (start demo_transaction)) /\
  calls (snd (infer services demo_request (start used))) =
    calls (snd (infer services demo_request (start demo_transaction))) /\
  http_status (fst (infer services demo_request (start used))) =
    http_status (fst (infer services demo_request (start demo_transaction))).
Proof.
  apply (transaction_is_not_read_for_decisions
           (scripted (verdict "SAFE") (verdict "SAFE") paris_match down down)
           demo_request
           {| Transaction.transaction_id := "tx-1";
              Transaction.should_store := true;
              Transaction.recorded :=
                [FError "Exception in Paraphrasing." (Exception "earlier")] |}
           demo_transaction).
  reflexivity.
Defined.

(** X10. Retrieval and inference are attempted only for a question
    classified SAFE for which the paraphrase lookup gave no match (none
    found, or the lookup failed), and inference never without retrieval. *)
Theorem retrieval_needs_safe_unmatched_question
    (services : Services) (request_body : InferRequest) (tr : Transaction.t) :
  let out := infer services request_body (start tr) in
  prefiltering_called (snd out) = true \/ inference_called (snd out) = true ->
  (exists scd,
     sensitive_content_detection_service services
       (_clean_question (query request_body)) (id (user request_body))
       = Returns scd /\
     sensitivity scd = "SAFE"%string) /\
  (forall found,
     paraphrase_service services (paraphrase_request request_body)
     <> Returns (Some found)) /\
  prefiltering_called (snd out) = true.
Proof.
  intros out. subst out.
  explore_pipeline; intros [H|H]; try discriminate H;
    repeat match goal with
           | E : String.eqb _ _ = true |- _ => apply String.eqb_eq in E
           end;
    (split; [eauto | split; [intros found; discriminate | reflexivity]]).
Qed.

Lemma retrieval_needs_safe_unmatched_question_witness :
  let services := scripted (verdict "SAFE") (verdict "SAFE") down
                           (Returns None) (says "Paris") in
  (exists scd,
     sensitive_content_detection_service services
       (_clean_question (query demo_request)) (id (user demo_request))
       = Returns scd /\
     sensitivity scd = "SAFE"%string) /\
  (forall found,
     paraphrase_service services (paraphrase_request demo_request)
     <> Returns (Some found)) /\
  prefiltering_called (snd (infer services demo_request (start demo_transaction)))
    = true.
Proof.
  apply (retrieval_needs_safe_unmatched_question
           (scripted (verdict "SAFE") (verdict "SAFE") down
                     (Returns None) (says "Paris"))
           demo_request demo_transaction).
  left. reflexivity.
Defined.

(** ** The transaction *)

(** X11. Every run, whatever its outcome, marks the transaction for
    storage, keeps its identifier and what it had recorded, and records the
    request first: the request body, the question uuid and the cleaned
    question. *)
Theorem every_run_marks_the_transaction
    (services : Services) (request_body : InferRequest) (tr : Transaction.t) :
  let out := infer services request_body (start tr) in
  Transaction.should_store (transaction (snd out)) = true /\
  Transaction.transaction_id (transaction (snd out)) =
    Transaction.transaction_id tr /\
  exists facts,
    Transaction.recorded (transaction (snd out)) =
      (Transaction.recorded tr ++
       FRequest request_body (uuid4 services)
                (_clean_question (query request_body)) :: facts)%list.
Proof.
  intros out. subst out.
  explore_pipeline;
    (split; [reflexivity | split; [reflexivity |]]);
    repeat rewrite <- app_assoc; cbn; eexists; reflexivity.
Qed.

(** X12. A failure of a service is recorded before the endpoint goes on:
    when a run has called the sensitivity, prefiltering or inference
    service and the service raises on that call, the transaction holds at
    the end of the run an error fact with the exception raised and the note
    of that service. The same holds of the paraphrase service, whose
    failure does not end the run, unless the sensitivity check of the
    question raised before the paraphrase service had answered: then the
    endpoint has raised without waiting for it. *)
Theorem service_failure_is_recorded
    (services : Services) (request_body : InferRequest) (tr : Transaction.t)
    (c : Call) (e : PyException) :
  let out := infer services request_body (start tr) in
  In c (calls (snd out)) ->
  service_error services c = Some e ->
  (forall r, c = CallParaphrase r ->
     paraphrase_answers_first services = true \/
     exists scd,
       sensitive_content_detection_service services
         (_clean_question (query request_body)) (id (user request_body))
       = Returns scd) ->
  In (FError
        match c with
        | CallSensitivity _ _ => "Exception in Sensitive Content Detection."
        | CallParaphrase _ => "Exception in Paraphrasing."
        | CallPrefiltering _ _ _ => "Exception in Prefiltering."
        | CallInference _ _ _ _ => "Exception in QAService."
        end e)
     (Transaction.recorded (transaction (snd out))).
Proof.
  intros out. subst out.
  explore_pipeline; intros Hin Herr Hwait; which_call Hin;
    cbn in Herr;
    repeat match goal with
           | H : ?x = _, H' : context [match ?x with _ => _ end] |- _ =>
               rewrite H in H'
           end;
    try discriminate;
    try (destruct (Hwait _ eq_refl) as [Hfirst | [scd Hscd]];
         [discriminate Hfirst | discriminate Hscd]);
    injection Herr as <-;
    repeat (rewrite in_app_iff; cbn); auto 20.
Qed.

Lemma service_failure_is_recorded_witness :
  let services := scripted (verdict "SAFE") (verdict "SAFE") down
                           (Returns (Some demo_doc)) (says "Paris") in
  In (FError "Exception in Paraphrasing." (Exception "timeout"))
     (Transaction.recorded
        (transaction (snd (infer services demo_request (start demo_transaction))))) /\
  http_status (fst (infer services demo_request (start demo_transaction))) = 200.
Proof.
  split; [|reflexivity].
  apply (service_failure_is_recorded
           (scripted (verdict "SAFE") (verdict "SAFE") down
                     (Returns (Some demo_doc)) (says "Paris"))
           demo_request demo_transaction
           (CallParaphrase {| question_content_str := "What is the capital of France?";
                              req_course_id := "geo-101" |})
           (Exception "timeout")).
  - vm_compute. auto 10.
  - reflexivity.
  - intros r _. right. eexists. reflexivity.
Defined.

(** The proviso of X12 is needed: when the sensitivity check of the
    question raises before the paraphrase service has answered, the
    endpoint raises at once; both requests were sent, and the failure of
    the paraphrase service is not in the transaction. *)
Lemma gather_does_not_wait_after_a_failure :
  let out := infer (scripted down (verdict "SAFE") down
                             (Returns (Some demo_doc)) (says "Paris"))
                   demo_request (start demo_transaction) in
  http_status (fst out) = 500 /\
  calls (snd out) =
    [CallSensitivity "What is the capital of France?" "u-17";
     CallParaphrase {| question_content_str := "What is the capital of France?";
                       req_course_id := "geo-101" |}] /\
  Transaction.recorded (transaction (snd out)) =
    [FRequest demo_request 42%N "What is the capital of France?";
     FError "Exception in Sensitive Content Detection." (Exception "timeout")].
Proof. cbv zeta. split; [|split]; reflexivity. Qed.

(** ** From the outcome back to its cause *)

(** X13. A bare 404 has exactly two causes, both on the path of a SAFE
    question without paraphrase match: prefiltering returned no document,
    or the inference service returned an answer whose cleaned text the
    validator rejects. *)
Theorem not_found_has_two_causes
    (services : Services) (request_body : InferRequest) (tr : Transaction.t) :
  let q := _clean_question (query request_body) in
  let uid := id (user request_body) in
  let lang := language request_body in
  fst (infer services request_body (start tr)) = Ok (Response 404) ->
  (exists scd,
     sensitive_content_detection_service services q uid = Returns scd /\
     sensitivity scd = "SAFE"%string) /\
  (forall found,
     paraphrase_service services (paraphrase_request request_body)
     <> Returns (Some found)) /\
  (prefiltering_service services q lang [course_id request_body] = Returns None \/
   exists doc (res : InferenceResult),
     prefiltering_service services q lang [course_id request_body]
       = Returns (Some doc) /\
     infer_service services q doc uid lang = Returns res /\
     _check_answer_validity (Some (_clean_answer (inference_answer res))) lang
       = false).
Proof.
  intros q uid lang. subst q uid lang.
  explore_pipeline; intros H; try discriminate H;
    repeat match goal with
           | E : String.eqb _ _ = true |- _ => apply String.eqb_eq in E
           end;
    (split; [eauto | split; [intros found; discriminate |]]);
    first [ left; reflexivity
          | right; eexists;
            eexists (Build_InferenceResult _ (Build_ModelContext _));
            repeat (split; [first [reflexivity | cbn; eassumption] |]);
            assumption ].
Qed.

Lemma not_found_has_two_causes_witness :
  let services := scripted (verdict "SAFE") (verdict "SAFE") (Returns None)
                           (Returns (Some demo_doc)) (says "unknown.") in
  prefiltering_service services "What is the capital of France?" EN ["geo-101"]
    = Returns None \/
  exists doc (res : InferenceResult),
    prefiltering_service services "What is the capital of France?" EN ["geo-101"]
      = Returns (Some doc) /\
    infer_service services "What is the capital of France?" doc "u-17" EN
      = Returns res /\
    _check_answer_validity (Some (_clean_answer (inference_answer res))) EN = false.
Proof.
  apply (not_found_has_two_causes
           (scripted (verdict "SAFE") (verdict "SAFE") (Returns None)
                     (Returns (Some demo_doc)) (says "unknown."))
           demo_request demo_transaction).
  reflexivity.
Defined.

(** X14. A bare 400 always comes from a verdict: the run made a sensitivity
    check, on the cleaned question or on the cleaned answer, that the
    service answered with a verdict other than SAFE. *)
Theorem rejection_has_a_non_safe_verdict
    (services : Services) (request_body : InferRequest) (tr : Transaction.t) :
  let out := infer services request_body (start tr) in
  fst out = Ok (Response 400) ->
  exists text scd,
    In (CallSensitivity text (id (user request_body))) (calls (snd out)) /\
    sensitive_content_detection_service services text (id (user request_body))
      = Returns scd /\
    sensitivity scd <> "SAFE"%string.
Proof.
  intros out. subst out.
  explore_pipeline; intros H; try discriminate H;
    repeat match goal with
           | E : String.eqb _ _ = false |- _ => apply String.eqb_neq in E
           end.
  all: match goal with
       | E : sensitive_content_detection_service _ ?t _ = Returns ?s,
         N : sensitivity ?s <> _ |- _ =>
           exists t, s; split; [cbn; auto 10 | split; [exact E | exact N]]
       end.
Qed.

Lemma rejection_has_a_non_safe_verdict_witness :
  let services := scripted (verdict "SAFE") (verdict "UNSAFE") (Returns None)
                           (Returns (Some demo_doc)) (says "Paris") in
  exists text scd,
    In (CallSensitivity text "u-17")
       (calls (snd (infer services demo_request (start demo_transaction)))) /\
    sensitive_content_detection_service services text "u-17" = Returns scd /\
    sensitivity scd <> "SAFE"%string.
Proof.
  apply (rejection_has_a_non_safe_verdict
           (scripted (verdict "SAFE") (verdict "UNSAFE") (Returns None)
                     (Returns (Some demo_doc)) (says "Paris"))
           demo_request demo_transaction).
  reflexivity.
Defined.

(** X15. The endpoint raises an [HTTPException] for two reasons only. Either
    a call of the run to the sensitivity, prefiltering or inference service
    raised, and the status is the one fixed for that service; or the
    inference service returned a reply that lacks "model_context", its
    "model_name" or "answer", and the status is 400 as for a failure of
    that service. A failure of the paraphrase service is never the
    reason. *)
Theorem raised_exception_has_a_failed_service
    (services : Services) (request_body : InferRequest) (tr : Transaction.t)
    (h : HTTPException) :
  let out := infer services request_body (start tr) in
  fst out = Raise h ->
  (exists c e,
     In c (calls (snd out)) /\
     service_error services c = Some e /\
     fatal_status c = Some (status_code h)) \/
  (status_code h = 400 /\
   exists doc reply,
     In (CallInference (_clean_question (query request_body)) doc
           (id (user request_body)) (language request_body))
        (calls (snd out)) /\
     infer_service services (_clean_question (query request_body)) doc
       (id (user request_body)) (language request_body) = Returns reply /\
     (reply_model_context reply = None \/
      reply_model_context reply = Some None \/
      reply_answer reply = None)).
Proof.
  intros out. subst out.
  explore_pipeline; intros H; try discriminate H; injection H as <-.
  all: first
    [ left;
      match goal with
      | E : sensitive_content_detection_service _ ?t ?u = Raises ?e |- _ =>
          exists (CallSensitivity t u), e
      | E : prefiltering_service _ ?q ?l ?ids = Raises ?e |- _ =>
          exists (CallPrefiltering q l ids), e
      | E : infer_service _ ?q ?d ?u ?l = Raises ?e |- _ =>
          exists (CallInference q d u l), e
      end;
      (split; [cbn; auto 10 | split; [cbn | reflexivity]]);
      match goal with
      | E : ?x = Raises _ |- context [match ?x with _ => _ end] =>
          rewrite E; reflexivity
      end
    | right; split; [reflexivity|];
      match goal with
      | E : infer_service _ _ ?d _ _ = Returns ?r |- _ =>
          exists d, r; split; [cbn; auto 10 | split; [exact E | cbn; auto]]
      end ].
Qed.

Lemma raised_exception_has_a_failed_service_witness :
  let services :=
    scripted (verdict "SAFE") (verdict "SAFE") down (Returns (Some demo_doc))
             (Returns {| reply_answer := None;
                         reply_model_context := Some (Some "qa-v2"%string) |}) in
  let out := infer services demo_request (start demo_transaction) in
  (exists c e,
     In c (calls (snd out)) /\
     service_error services c = Some e /\
     fatal_status c = Some 400) \/
  (400 = 400 /\
   exists doc reply,
     In (CallInference (_clean_question (query demo_request)) doc
           (id (user demo_request)) (language demo_request))
        (calls (snd out)) /\
     infer_service services (_clean_question (query demo_request)) doc
       (id (user demo_request)) (language demo_request) = Returns reply /\
     (reply_model_context reply = None \/
      reply_model_context reply = Some None \/
      reply_answer reply = None)).
Proof.
  apply (raised_exception_has_a_failed_service
           (scripted (verdict "SAFE") (verdict "SAFE") down
                     (Returns (Some demo_doc))
                     (Returns {| reply_answer := None;
                                 reply_model_context := Some (Some "qa-v2"%string) |}))
           demo_request demo_transaction
           {| status_code := 400; detail := "QAService Exception" |}).
  reflexivity.
Defined.

(** ** An answer the validator rejects *)

Lemma strip_is_a_trim (s : string) :
  (exists pre post,
     s = (pre ++ PyStr.strip s ++ post)%string /\
     PyStr.all_space pre = true /\ PyStr.all_space post = true) /\
  (forall c t, PyStr.strip s = String c t -> PyStr.isspace c = false) /\
  (forall t c, PyStr.strip s = (t ++ String c "")%string ->
               PyStr.isspace c = false).
Proof.
  unfold PyStr.strip. split; [|split].
  - destruct (lstrip_split s) as (pre & Hs & Hpre).
    destruct (rstrip_split (PyStr.lstrip s)) as (post & Hl & Hpost).
    exists pre, post. rewrite <- Hl, <- Hs. auto.
  - intros c t H.
    destruct (lstrip_head s) as [E|(c' & t' & E & Hc')]; rewrite E in H.
    + discriminate H.
    + destruct (rstrip_keeps_head c' t' Hc') as [r Hr].
      rewrite Hr in H. inversion H; subst. exact Hc'.
  - intros t c H. exact (rstrip_last _ _ _ H).
Qed.

(** X16. When the run reaches inference (question SAFE, no paraphrase
    match, a document retrieved) and the inference service returns a reply
    with a text as answer, the text the validator is asked about is that
    answer without the white space at its two ends, and nothing else taken
    away; if the validator rejects it, the endpoint returns the bare
    response 404 and the only sensitivity check of the run is the one of
    the question. *)
Theorem invalid_model_answer_is_not_found
    (services : Services) (request_body : InferRequest) (tr : Transaction.t)
    (scd : ScdResponse) (doc : Document) (res : InferenceResult) :
  sensitive_content_detection_service services
    (_clean_question (query request_body)) (id (user request_body)) = Returns scd ->
  sensitivity scd = "SAFE" ->
  (forall found,
     paraphrase_service services (paraphrase_request request_body)
     <> Returns (Some found)) ->
  prefiltering_service services (_clean_question (query request_body))
    (language request_body) [course_id request_body] = Returns (Some doc) ->
  infer_service services (_clean_question (query request_body)) doc
    (id (user request_body)) (language request_body) = Returns res ->
  _check_answer_validity (Some (_clean_answer (inference_answer res)))
    (language request_body) = false ->
  let out := infer services request_body (start tr) in
  let cleaned := _clean_answer (inference_answer res) in
  (exists pre post,
     inference_answer res = (pre ++ cleaned ++ post)%string /\
     PyStr.all_space pre = true /\ PyStr.all_space post = true) /\
  (forall c t, cleaned = String c t -> PyStr.isspace c = false) /\
  (forall t c, cleaned = (t ++ String c "")%string -> PyStr.isspace c = false) /\
  fst out = Ok (Response 404) /\
  http_status (fst out) = 404 /\
  http_body (fst out) = Empty /\
  calls (snd out) =
    [CallSensitivity (_clean_question (query request_body)) (id (user request_body));
     CallParaphrase (paraphrase_request request_body);
     CallPrefiltering (_clean_question (query request_body))
       (language request_body) [course_id request_body];
     CallInference (_clean_question (query request_body)) doc
       (id (user request_body)) (language request_body)] /\
  sensitivity_calls (snd out) = 1%nat.
Proof.
  intros Hscd Hsafe Hnone Hpre Hinf Hinvalid out cleaned. subst out cleaned.
  destruct (strip_is_a_trim (inference_answer res)) as (Hsplit & Hfirst & Hlast).
  split; [exact Hsplit | split; [exact Hfirst | split; [exact Hlast |]]].
  apply eqb_SAFE_true in Hsafe.
  run_pipeline;
    try (exfalso; eapply Hnone; reflexivity);
    repeat split; reflexivity.
Qed.

Lemma invalid_model_answer_is_not_found_witness :
  let out := infer (scripted (verdict "SAFE") (verdict "SAFE") (Returns None)
                             (Returns (Some demo_doc)) (says " Unknown. "))
                   demo_request (start demo_transaction) in
  _clean_answer " Unknown. " = "Unknown."%string /\
  (exists pre post,
     " Unknown. "%string = (pre ++ _clean_answer " Unknown. " ++ post)%string /\
     PyStr.all_space pre = true /\ PyStr.all_space post = true) /\
  fst out = Ok (Response 404) /\
  calls (snd out) =
    [CallSensitivity "What is the capital of France?" "u-17";
     CallParaphrase {| question_content_str := "What is the capital of France?";
                       req_course_id := "geo-101" |};
     CallPrefiltering "What is the capital of France?" EN ["geo-101"];
     CallInference "What is the capital of France?" demo_doc "u-17" EN] /\
  sensitivity_calls (snd out) = 1%nat.
Proof.
  destruct (invalid_model_answer_is_not_found
              (scripted (verdict "SAFE") (verdict "SAFE") (Returns None)
                        (Returns (Some demo_doc)) (says " Unknown. "))
              demo_request demo_transaction
              {| sensitivity := "SAFE"; scd_model_name := "scd-v1" |}
              demo_doc
              {| inference_answer := " Unknown. ";
                 model_context := {| model_name := "qa-v2" |} |})
    as (Hsplit & _ & _ & Hout & _ & _ & Hcalls & Hcount);
    try reflexivity.
  - intros found H. discriminate H.
  - split; [reflexivity | split; [exact Hsplit | split; [exact Hout |
      split; [exact Hcalls | exact Hcount]]]].
Defined.
